(** * compression_analyzer.py: instrumentation and compression profiling

    A shallow embedding of [src/compression_analyzer.py]: the model tree of
    [torch.nn.Module] objects, the recursive readout
    [extract_compression_rates], the evaluation loop [test], the checkpoint
    helpers [save_ckpt] / [resume_from_ckpt], [validate] and the driver
    [run].  Python exceptions are an explicit error type; in-place list
    mutation is explicit state passing. *)

From Stdlib Require Import ZArith QArith List Ascii String Bool Lia.
From stdpp Require Import base option list strings gmap.

Local Open Scope string_scope.
Local Open Scope list_scope.
Local Open Scope Z_scope.

(* ===================================================================== *)
(** ** Exceptions *)
(* ===================================================================== *)

(** The Python exceptions the analyzer can raise. *)
Inductive exn : Type :=
  | NoSamplesError
  | AttributeError
  | TypeError
  | KeyError
  | ZeroDivisionError
  | RuntimeError
  | FileNotFoundError.

Inductive result (A : Type) : Type :=
  | Ok (a : A)
  | Raise (e : exn).
Arguments Ok {A} a.
Arguments Raise {A} e.

Definition bind {A B} (r : result A) (k : A → result B) : result B :=
  match r with
  | Ok a => k a
  | Raise e => Raise e
  end.

Notation "'do' x <- r ; k" := (bind r (fun x => k))
  (at level 10, x pattern, r at level 100, k at level 200).

(* ===================================================================== *)
(** ** Model tree *)
(* ===================================================================== *)

(** Modelled from the spec: the Bandwidth Recorder of
    [utils/module_wrap_util.py] (not in the sources): cumulative bytes and
    cumulative sample count. *)
Record Recorder : Type := mkRecorder {
  cum_bytes : Z;
  cum_samples : Z
}.

(** A freshly built recorder, before any forward pass. *)
Definition new_recorder : Recorder := mkRecorder 0 0.

(** Modelled from the spec: [record(byte_count)] adds the bytes and one
    sample. *)
Definition record (r : Recorder) (byte_count : Z) : Recorder :=
  mkRecorder (cum_bytes r + byte_count) (cum_samples r + 1).

(** Modelled from the spec: [average()] is cumulative bytes over cumulative
    samples and fails with [NoSamplesError] on a recorder without samples. *)
Definition average (r : Recorder) : result Q :=
  if cum_samples r <=? 0 then Raise NoSamplesError
  else Ok (cum_bytes r # Z.to_pos (cum_samples r)).

(** A module is either an ordinary [nn.Module] with its class name and its
    named children in declaration order, or a [WrapperModule] around the
    original module, with its two recorders. *)
#[warnings="-register-all"]
Inductive Module : Type :=
  | Plain (cls : string) (kids : list (string * Module))
  | WrapperModule (org_module : Module) (org_bandwidth compressed_bandwidth : Recorder).

(** [type(m).__name__] *)
Definition type_name (m : Module) : string :=
  match m with
  | Plain cls _ => cls
  | WrapperModule _ _ _ => "WrapperModule"
  end.

(** [m.named_children()]: a wrapper registers the module it owns under the
    attribute name [org_module]. *)
Definition named_children (m : Module) : list (string * Module) :=
  match m with
  | Plain _ kids => kids
  | WrapperModule org _ _ => [("org_module", org)]
  end.

(** [list(m.children())] *)
Definition children (m : Module) : list Module := map snd (named_children m).

(** [isinstance(m, module_wrap_util.WrapperModule)] *)
Definition isinstance_WrapperModule (m : Module) : bool :=
  match m with
  | WrapperModule _ _ _ => true
  | Plain _ _ => false
  end.

(** Truth value of a Python list. *)
Definition truthy {A} (l : list A) : bool :=
  match l with
  | [] => false
  | _ :: _ => true
  end.

(** Modelled from the spec: [m.get_average_org_bandwidth()] of
    [WrapperModule] ([utils/module_wrap_util.py], not in the sources) is the
    average of the recorder of the original data.  Only wrappers have the
    method; on any other [nn.Module] the attribute lookup fails. *)
Definition get_average_org_bandwidth (m : Module) : result Q :=
  match m with
  | WrapperModule _ r _ => average r
  | Plain _ _ => Raise AttributeError
  end.

(** Modelled from the spec: [m.get_average_compressed_bandwidth()], the
    average of the recorder of the compressed data. *)
Definition get_average_compressed_bandwidth (m : Module) : result Q :=
  match m with
  | WrapperModule _ _ r => average r
  | Plain _ _ => Raise AttributeError
  end.

(** [type(m.org_module).__name__] *)
Definition org_module_type_name (m : Module) : result string :=
  match m with
  | WrapperModule org _ _ => Ok (type_name org)
  | Plain _ _ => Raise AttributeError
  end.

(* ===================================================================== *)
(** ** extract_compression_rates *)
(* ===================================================================== *)

(** The three lists the caller passes in and the function appends to. *)
Record Lists : Type := mkLists {
  org_bandwidth_list : list Q;
  compressed_bandwidth_list : list Q;
  name_list : list string
}.

(** A run ends normally or with an exception; the lists are mutated in
    place, so their content at that moment is part of the outcome. *)
Definition outcome : Type := Lists * option exn.

(** The condition of the [if]: the child has children and is no wrapper. *)
Definition descends (child_module : Module) : bool :=
  truthy (children child_module) && negb (isinstance_WrapperModule child_module).

(** The [else] branch: three appends, each after the call that produces the
    value, so an exception leaves the earlier appends in place. *)
Definition measure (child_module : Module) (st : Lists) : outcome :=
  match get_average_org_bandwidth child_module with
  | Raise e => (st, Some e)
  | Ok o =>
    let st1 := mkLists (org_bandwidth_list st ++ [o])
                       (compressed_bandwidth_list st) (name_list st) in
    match get_average_compressed_bandwidth child_module with
    | Raise e => (st1, Some e)
    | Ok c =>
      let st2 := mkLists (org_bandwidth_list st1)
                         (compressed_bandwidth_list st1 ++ [c]) (name_list st1) in
      match org_module_type_name child_module with
      | Raise e => (st2, Some e)
      | Ok n =>
        (mkLists (org_bandwidth_list st2) (compressed_bandwidth_list st2)
                 (name_list st2 ++ [n]), None)
      end
    end
  end.

(** The body of the [for] loop for one child, with the recursive call as
    a parameter. *)
Definition visit_child (rec : Module → Lists → outcome)
    (child_module : Module) (st : Lists) : outcome :=
  if descends child_module then rec child_module st
  else measure child_module st.

(** The [for] loop over [named_children()]: the first exception ends it. *)
Fixpoint for_named_children (body : Module → Lists → outcome)
    (cs : list (string * Module)) (st : Lists) : outcome :=
  match cs with
  | [] => (st, None)
  | (_, child_module) :: rest =>
    match body child_module st with
    | (st', None) => for_named_children body rest st'
    | (st', Some e) => (st', Some e)
    end
  end.

(** [named_children()] is unfolded per constructor so that the recursion is
    structural. *)
Fixpoint extract_compression_rates (parent_module : Module) (st : Lists) : outcome :=
  match parent_module with
  | Plain _ kids =>
    for_named_children (visit_child extract_compression_rates) kids st
  | WrapperModule org _ _ =>
    for_named_children (visit_child extract_compression_rates)
      [("org_module", org)] st
  end.

(** What [plot_compression_rates] hands to the plotting library: the x
    positions, the constant input line and the three extracted lists. *)
Record Plot : Type := mkPlot {
  plot_xs : list Z;
  plot_input : list Q;
  plot_original : list Q;
  plot_compressed : list Q;
  plot_xticks : list string
}.

(** [list(range(n))] *)
Definition range0 (n : nat) : list Z := map Z.of_nat (seq 0 n).

(** [plot_compression_rates]: three fresh lists, the extraction, then the
    plot data. *)
Definition plot_compression_rates (model : Module) (avg_input_bandwidth : Q)
    : result Plot :=
  match extract_compression_rates model (mkLists [] [] []) with
  | (st, None) =>
    Ok (mkPlot (range0 (List.length (org_bandwidth_list st)))
               (map (fun _ => avg_input_bandwidth) (name_list st))
               (org_bandwidth_list st) (compressed_bandwidth_list st)
               (name_list st))
  | (_, Some e) => Raise e
  end.

(* ===================================================================== *)
(** ** The traversal as the specification words it *)
(* ===================================================================== *)

(** Depth-first pre-order over the children in declared order: a child that
    has children and is no wrapper contributes its own measured leaves, any
    other child is a measured leaf. *)
Fixpoint measured_leaves (parent_module : Module) : list Module :=
  let visit child := if descends child then measured_leaves child else [child] in
  match parent_module with
  | Plain _ kids => flat_map (fun nc => visit (snd nc)) kids
  | WrapperModule org _ _ => visit org
  end.

(** Reading the leaves out one after the other, stopping at the first
    exception. *)
Fixpoint read_leaves (leaves : list Module) (st : Lists) : outcome :=
  match leaves with
  | [] => (st, None)
  | leaf :: rest =>
    match measure leaf st with
    | (st', None) => read_leaves rest st'
    | (st', Some e) => (st', Some e)
    end
  end.

(** A leaf has received a profiling forward pass when both of its recorders
    hold at least one sample. *)
Definition profiled (m : Module) : bool :=
  match m with
  | WrapperModule _ r1 r2 => (0 <? cum_samples r1) && (0 <? cum_samples r2)
  | Plain _ _ => false
  end.

(** A wrapped leaf that never received a forward pass: both recorders are
    as they were built. *)
Definition never_profiled (m : Module) : bool :=
  match m with
  | WrapperModule _ r1 r2 => (cum_samples r1 =? 0) && (cum_samples r2 =? 0)
  | Plain _ _ => false
  end.

(* ===================================================================== *)
(** ** Tensors, loaders and Python values *)
(* ===================================================================== *)

(** A dense tensor: its shape, the byte width of one element and the
    elements in row-major order. *)
Record Tensor : Type := mkTensor {
  dims : list Z;
  itemsize : Z;
  elements : list Z
}.

(** [t.numpy().nbytes]: element count times element width. *)
Definition nbytes (t : Tensor) : Z := fold_right Z.mul 1 (dims t) * itemsize t.

(** One item of a data loader: the input batch and the labels, one label
    per sample. *)
Definition Batch : Type := Tensor * list Z.
Definition Loader : Type := list Batch.

(** The model object the driver works with: the module tree and the
    parameters [state_dict()] returns. *)
Record Model : Type := mkModel {
  net : Module;
  weights : gmap string (list Z)
}.

(** The YAML configuration, as far as this file reads it. *)
Record Config : Type := mkConfig {
  experiment_name : string;
  model_type_of : string;
  input_shape : list Z
}.

(** Python values that are passed around untyped. *)
Inductive pyval : Type :=
  | VStr (s : string)
  | VInt (z : Z)
  | VFloat (q : Q)
  | VStateDict (sd : gmap string (list Z))
  | VModel (m : Model)
  | VLoader (l : Loader)
  | VCriterion
  | VDevice (d : string).

(** The command line arguments [run] and its callees read. *)
Record Args : Type := mkArgs {
  arg_config : string;
  arg_ckpt : string;
  arg_epoch : Z;
  arg_interval : Z;
  arg_ae : option string;
  arg_init : bool;
  arg_evaluate : bool
}.

(** The collaborators outside this file: the numeric forward and training
    computations, [utils.module_util], [utils.caltech_util],
    [utils.module_wrap_util.wrap_all_child_modules], [ae_runner] and YAML
    loading.  Each may raise. *)
Record Externals : Type := mkExternals {
  forward : Model → Tensor → result (Model * list Z);
  train : Model → Loader → Z → string → Z → result Model;
  yaml_load : string → result Config;
  get_autoencoder : Config → result Model;
  ae_resume_from_ckpt : Model → Config → string → result Model;
  get_data_loaders : Args → option Model → Config → result (Loader * Loader * Loader);
  get_model : string → Config → result Model;
  wrap_all_child_modules : Model → result Model;
  cuda_is_available : bool
}.

(* ===================================================================== *)
(** ** test *)
(* ===================================================================== *)

(** Python's true division of two integers (the quotient as a rational). *)
Definition truediv (a b : Z) : result Q :=
  if b =? 0 then Raise ZeroDivisionError
  else Ok ((a * Z.sgn b) # Z.to_pos (Z.abs b)).

(** [predicted.eq(targets).sum().item()] *)
Fixpoint count_eq (predicted targets : list Z) : Z :=
  match predicted, targets with
  | p :: ps, t :: ts => (if p =? t then 1 else 0) + count_eq ps ts
  | _, _ => 0
  end.

(** The local variables of [test] that the loop updates. *)
Record Counters : Type := mkCounters {
  cnt_model : Model;
  cnt_correct : Z;
  cnt_total : Z;
  cnt_bandwidth : Z
}.

(** The [for] loop of [test] over the batches of the loader. *)
Fixpoint test_loop (X : Externals) (test_loader : Loader) (c : Counters)
    : result Counters :=
  match test_loader with
  | [] => Ok c
  | (inputs, targets) :: rest =>
    let bandwidth := cnt_bandwidth c + nbytes inputs in
    do (model', predicted) <- forward X (cnt_model c) inputs;
    let total := cnt_total c + Z.of_nat (List.length targets) in
    let correct := cnt_correct c + count_eq predicted targets in
    test_loop X rest (mkCounters model' correct total bandwidth)
  end.

(** [test(model, test_loader, device, data_type)]: the accuracy and the
    average input bandwidth, with the model as the forward passes left it. *)
Definition test (X : Externals) (model : Model) (test_loader : Loader)
    (device data_type : string) : result (Model * Q * Q) :=
  do c <- test_loop X test_loader (mkCounters model 0 0 0);
  do acc <- truediv (100 * cnt_correct c) (cnt_total c);
  do avg <- truediv (cnt_bandwidth c) (cnt_total c);
  Ok (cnt_model c, acc, avg).

(** Binding positional arguments to the parameters of a [def]: more
    arguments than parameters, or fewer than the parameters without a
    default, is a [TypeError]; missing trailing arguments take their
    defaults. *)
Definition bind_positional (nparams : nat) (defaults args : list pyval)
    : result (list pyval) :=
  if (nparams <? List.length args)%nat then Raise TypeError
  else if (List.length args <? nparams - List.length defaults)%nat then Raise TypeError
  else Ok (args ++ drop (List.length args - (nparams - List.length defaults)) defaults).

(** A call [test(...)] with positional arguments: the signature is
    [test(model, test_loader, device, data_type='Test')].  Bound values of
    another kind than the body expects end in an attribute lookup that
    fails. *)
Definition call_test (X : Externals) (args : list pyval) : result (Model * Q * Q) :=
  do bound <- bind_positional 4 [VStr "Test"] args;
  match bound with
  | [VModel model; VLoader test_loader; VDevice device; VStr data_type] =>
    test X model test_loader device data_type
  | _ => Raise AttributeError
  end.

(** Spec-side sums over a loader. *)
Definition total_samples (l : Loader) : Z :=
  fold_right (fun b acc => Z.of_nat (List.length (snd b)) + acc) 0 l.

Definition total_nbytes (l : Loader) : Z :=
  fold_right (fun b acc => nbytes (fst b) + acc) 0 l.

(* ===================================================================== *)
(** ** The world of the driver: checkpoint files and the call trace *)
(* ===================================================================== *)

(** Entering a call and returning from it normally. *)
Inductive event : Type :=
  | Enter (f : string)
  | Leave (f : string).

(** The checkpoint directory maps a path to the dictionary [torch.save]
    wrote there; the trace lists the calls [run] made, oldest first. *)
Record World : Type := mkWorld {
  files : gmap string (gmap string pyval);
  trace : list event
}.

(** Computations of the driver: they read and write the world and end
    normally or with an exception. *)
Definition M (A : Type) : Type := World → World * result A.

Definition ret {A} (a : A) : M A := fun w => (w, Ok a).

Definition lift {A} (r : result A) : M A := fun w => (w, r).

Definition bindM {A B} (c : M A) (k : A → M B) : M B :=
  fun w =>
    match c w with
    | (w', Ok a) => k a w'
    | (w', Raise e) => (w', Raise e)
    end.

Notation "'exec' x <~ c ; k" := (bindM c (fun x => k))
  (at level 10, x pattern, c at level 100, k at level 200).

Definition log (ev : event) : M unit :=
  fun w => (mkWorld (files w) (trace w ++ [ev]), Ok tt).

(** A call as [run] makes it: the trace records its start, and its end
    when it returns. *)
Definition called {A} (f : string) (c : M A) : M A :=
  exec _ <~ log (Enter f);
  exec a <~ c;
  exec _ <~ log (Leave f);
  ret a.

(* ===================================================================== *)
(** ** save_ckpt and resume_from_ckpt *)
(* ===================================================================== *)

Definition starts_with_slash (s : string) : bool :=
  match s with
  | String c _ => Ascii.eqb c "/"%char
  | EmptyString => false
  end.

Fixpoint ends_with_slash (s : string) : bool :=
  match s with
  | EmptyString => false
  | String c EmptyString => Ascii.eqb c "/"%char
  | String _ rest => ends_with_slash rest
  end.

(** [os.path.join(a, b)] on POSIX. *)
Definition path_join (a b : string) : string :=
  if starts_with_slash b then b
  else if String.eqb a "" || ends_with_slash a then (a ++ b)%string
  else (a ++ "/" ++ b)%string.

(** [d[key]] on a dictionary. *)
Definition getitem (d : gmap string pyval) (key : string) : result pyval :=
  match d !! key with
  | Some v => Ok v
  | None => Raise KeyError
  end.

(** The dictionary literal [state] of [save_ckpt]. *)
Definition ckpt_state (model : Model) (acc epoch model_type : pyval)
    : gmap string pyval :=
  <["epoch" := epoch]>
    (<["acc" := acc]>
      (<["model" := VStateDict (weights model)]>
        (<["type" := model_type]> ∅))).

(** [save_ckpt]: build [state], then [torch.save] it to the path. *)
Definition save_ckpt (model : Model) (acc epoch : pyval) (ckpt_file_path : string)
    (model_type : pyval) : M unit :=
  fun w =>
    let state := ckpt_state model acc epoch model_type in
    (mkWorld (<[ckpt_file_path := state]> (files w)) (trace w), Ok tt).

(** [model.load_state_dict(sd)]: strict, the keys have to be those of the
    model. *)
Definition load_state_dict (model : Model) (v : pyval) : result Model :=
  match v with
  | VStateDict sd =>
    if bool_decide (dom sd = dom (weights model))
    then Ok (mkModel (net model) sd)
    else Raise RuntimeError
  | _ => Raise TypeError
  end.

(** [os.path.exists(path)] *)
Definition path_exists (w : World) (path : string) : bool :=
  match files w !! path with
  | Some _ => true
  | None => false
  end.

(** [torch.load(path)] *)
Definition torch_load (w : World) (path : string) : result (gmap string pyval) :=
  match files w !! path with
  | Some d => Ok d
  | None => Raise FileNotFoundError
  end.

Definition resume_from_ckpt (model : Model) (config : Config) (args : Args)
    : M (Model * pyval * pyval * pyval * string) :=
  fun w =>
    let ckpt_file_path := path_join (arg_ckpt args) (experiment_name config) in
    if arg_init args || negb (path_exists w ckpt_file_path)
    then (w, Ok (model, VStr (model_type_of config), VInt 0, VInt 1, ckpt_file_path))
    else
      (w, do checkpoint <- torch_load w ckpt_file_path;
          do sd <- getitem checkpoint "model";
          do model' <- load_state_dict model sd;
          do model_type <- getitem checkpoint "type";
          do best_acc <- getitem checkpoint "acc";
          do start_epoch <- getitem checkpoint "epoch";
          Ok (model', model_type, best_acc, start_epoch, ckpt_file_path)).

(* ===================================================================== *)
(** ** validate *)
(* ===================================================================== *)

Definition numeric (v : pyval) : result Q :=
  match v with
  | VInt z => Ok (inject_Z z)
  | VFloat q => Ok q
  | _ => Raise TypeError
  end.

(** [a > b] on numbers. *)
Definition py_gt (a b : pyval) : result bool :=
  do x <- numeric a;
  do y <- numeric b;
  Ok (negb (Qle_bool x y)).

Definition validate (X : Externals) (model : Model) (valid_loader : Loader)
    (criterion epoch : pyval) (device : string) (best_acc : pyval)
    (ckpt_file_path : string) (model_type : pyval) : M (Model * pyval) :=
  exec r <~ lift (call_test X [VModel model; VLoader valid_loader; criterion;
                          VDevice device; VStr "Validation"]);
  let '(model', acc, _) := r in
  exec gt <~ lift (py_gt (VFloat acc) best_acc);
  if (gt : bool)
  then exec _ <~ called "save_ckpt"
              (save_ckpt model' (VFloat acc) epoch ckpt_file_path model_type);
       ret (model', VFloat acc)
  else ret (model', best_acc).

(* ===================================================================== *)
(** ** run *)
(* ===================================================================== *)

Definition load_autoencoder (X : Externals)
    (ae_config_file_path ckpt_dir_path : option string) : result (option Model) :=
  match ae_config_file_path, ckpt_dir_path with
  | Some cfg_path, Some dir =>
    do ae_config <- yaml_load X cfg_path;
    do ae <- get_autoencoder X ae_config;
    do ae' <- ae_resume_from_ckpt X ae ae_config dir;
    Ok (Some ae')
  | _, _ => Ok None
  end.

Definition as_int (v : pyval) : result Z :=
  match v with
  | VInt z => Ok z
  | _ => Raise TypeError
  end.

(** [range(a, b)] *)
Definition py_range (a b : Z) : list Z := seqZ a (b - a).

(** The [for epoch in range(...)] loop of [run]. *)
Fixpoint epoch_loop (X : Externals) (args : Args) (epochs : list Z)
    (train_loader valid_loader : Loader) (criterion : pyval) (device : string)
    (ckpt_file_path : string) (model_type : pyval)
    (model : Model) (best_acc : pyval) : M (Model * pyval) :=
  match epochs with
  | [] => ret (model, best_acc)
  | epoch :: rest =>
    exec model1 <~ called "train"
      (lift (train X model train_loader epoch device (arg_interval args)));
    exec r <~ called "validate"
      (validate X model1 valid_loader criterion (VInt epoch) device best_acc
                ckpt_file_path model_type);
    let '(model2, best_acc') := r in
    epoch_loop X args rest train_loader valid_loader criterion device
               ckpt_file_path model_type model2 best_acc'
  end.

Definition run (X : Externals) (args : Args) : M Plot :=
  let device := if cuda_is_available X then "cuda" else "cpu" in
  exec config <~ lift (yaml_load X (arg_config args));
  exec ae <~ lift (load_autoencoder X (arg_ae args) (Some (arg_ckpt args)));
  exec loaders <~ lift (get_data_loaders X args ae config);
  let '(train_loader, valid_loader, test_loader) := loaders in
  exec model <~ lift (get_model X device config);
  exec resumed <~ called "resume_from_ckpt" (resume_from_ckpt model config args);
  let '(model, model_type, best_acc, start_epoch, ckpt_file_path) := resumed in
  let criterion := VCriterion in
  exec trained <~ (if arg_evaluate args then ret (model, best_acc)
              else
                exec first <~ lift (as_int start_epoch);
                epoch_loop X args (py_range first (first + arg_epoch args))
                           train_loader valid_loader criterion device
                           ckpt_file_path model_type model best_acc);
  let '(model, _) := trained in
  exec model <~ called "wrap_all_child_modules" (lift (wrap_all_child_modules X model));
  exec tested <~ called "test"
    (lift (call_test X [VModel model; VLoader test_loader; VDevice device]));
  let '(model, _, avg_input_bandwidth) := tested in
  called "plot_compression_rates"
    (lift (plot_compression_rates (net model) avg_input_bandwidth)).

(* ===================================================================== *)
(** ** Fixtures: a small wrapped model and a world to run the driver in *)
(* ===================================================================== *)

(** A wrapped leaf of class [cls] after one forward pass of 1000 bytes in
    and 250 bytes out. *)
Definition wrapped_leaf (cls : string) : Module :=
  WrapperModule (Plain cls []) (record new_recorder 1000) (record new_recorder 250).

(** A wrapped leaf that has not seen a forward pass. *)
Definition fresh_leaf (cls : string) : Module :=
  WrapperModule (Plain cls []) new_recorder new_recorder.

(** Children declared as [conv; block; fc], [block] a container with one
    leaf. *)
Definition small_net : Module :=
  Plain "Net"
    [("conv", wrapped_leaf "Conv2d");
     ("block", Plain "Sequential" [("0", wrapped_leaf "ReLU")]);
     ("fc", wrapped_leaf "Linear")].

Definition small_loader : Loader :=
  [(mkTensor [2; 3] 4 [1; 0], [1; 1]); (mkTensor [1; 3] 4 [0], [0])].

(** The model with trained parameters, and the same architecture freshly
    initialised. *)
Definition trained_model : Model :=
  mkModel small_net (<["fc.weight" := [1; 2]]> ∅).

Definition initial_model : Model :=
  mkModel small_net (<["fc.weight" := [0; 0]]> ∅).

(** Collaborators that all succeed: the forward pass predicts the stored
    elements, training and wrapping leave the model as it is. *)
Definition small_externals : Externals :=
  mkExternals
    (fun m t => Ok (m, elements t))
    (fun m _ _ _ _ => Ok m)
    (fun _ => Ok (mkConfig "exp" "resnet" [1; 224; 224; 3]))
    (fun _ => Raise RuntimeError)
    (fun m _ _ => Ok m)
    (fun _ _ _ => Ok (small_loader, small_loader, small_loader))
    (fun _ _ => Ok trained_model)
    (fun m => Ok m)
    false.

(** [--config c.yaml] with one epoch; the other flags at their defaults. *)
Definition train_args : Args :=
  mkArgs "c.yaml" "./resource/ckpt/" 1 50 None false false.

Definition evaluate_args : Args :=
  mkArgs "c.yaml" "./resource/ckpt/" 1 50 None false true.

Definition empty_world : World := mkWorld ∅ [].

(* ===================================================================== *)
(** ** Auxiliary notions for the further properties *)
(* ===================================================================== *)

(** The same tree with every attribute name under which a child is
    registered replaced by its image under [f]; classes, recorders and
    the order of the children stay. *)
Fixpoint rename_children (f : string → string) (m : Module) : Module :=
  match m with
  | Plain cls kids =>
    Plain cls (map (fun nc => (f (fst nc), rename_children f (snd nc))) kids)
  | WrapperModule org r1 r2 => WrapperModule (rename_children f org) r1 r2
  end.


(** A net with a child that is a container without children. *)
Definition net_with_empty_block : Module :=
  Plain "Net" [("conv", wrapped_leaf "Conv2d"); ("block", Plain "Sequential" [])].

(** A wrapper whose recorder of the original data holds a sample while
    the recorder of the compressed data holds none. *)
Definition half_recorded_leaf (cls : string) : Module :=
  WrapperModule (Plain cls []) (record new_recorder 1000) new_recorder.

(** Collaborators as [small_externals], except that the forward pass
    fails on an input without elements. *)
Definition picky_externals : Externals :=
  mkExternals
    (fun m t => match elements t with
                | [] => Raise RuntimeError
                | _ :: _ => Ok (m, elements t)
                end)
    (train small_externals)
    (yaml_load small_externals)
    (get_autoencoder small_externals)
    (ae_resume_from_ckpt small_externals)
    (get_data_loaders small_externals)
    (get_model small_externals)
    (wrap_all_child_modules small_externals)
    (cuda_is_available small_externals).

(** [--config c.yaml --epoch 0] *)
Definition no_epoch_args : Args :=
  mkArgs "c.yaml" "./resource/ckpt/" 0 50 None false false.

(** [--config c.yaml -init] *)
Definition init_args : Args :=
  mkArgs "c.yaml" "./resource/ckpt/" 1 50 None true false.

(** A world in which a checkpoint of [trained_model] has been saved. *)
Definition saved_world : World :=
  fst (save_ckpt trained_model (VFloat (93 # 1)) (VInt 7) "./resource/ckpt/exp"
         (VStr "resnet") empty_world).


(** A computation of the driver that leaves the checkpoint files alone. *)
Definition keeps_files {A} (c : M A) : Prop :=
  ∀ w, files (fst (c w)) = files w.

(* ===================================================================== *)
(** * Properties *)
(* ===================================================================== *)

(** ** Induction over module trees *)

Lemma Module_nested_ind (P : Module → Prop)
    (HPlain : ∀ cls kids, Forall (fun nc => P (snd nc)) kids → P (Plain cls kids))
    (HWrap : ∀ org r1 r2, P org → P (WrapperModule org r1 r2)) :
  ∀ m, P m.
Proof.
  fix IH 1. intros [cls kids | org r1 r2].
  - apply HPlain. induction kids as [| [n c] ks IHks]; constructor.
    + apply IH.
    + exact IHks.
  - apply HWrap, IH.
Qed.

(** ** The extraction follows the pre-order list of measured leaves *)

Lemma extract_compression_rates_eq parent_module st :
  extract_compression_rates parent_module st =
  for_named_children (visit_child extract_compression_rates)
    (named_children parent_module) st.
Proof. destruct parent_module; reflexivity. Qed.

Lemma measured_leaves_eq parent_module :
  measured_leaves parent_module =
  flat_map (fun nc => if descends (snd nc) then measured_leaves (snd nc) else [snd nc])
    (named_children parent_module).
Proof.
  destruct parent_module; simpl; [reflexivity |].
  now rewrite app_nil_r.
Qed.

Lemma read_leaves_app l1 l2 st :
  read_leaves (l1 ++ l2) st =
  match read_leaves l1 st with
  | (st', None) => read_leaves l2 st'
  | (st', Some e) => (st', Some e)
  end.
Proof.
  revert st. induction l1 as [| leaf l1 IH]; intros st; simpl.
  - reflexivity.
  - destruct (measure leaf st) as [st' [e |]]; [reflexivity | apply IH].
Qed.

Lemma read_leaves_single leaf st : read_leaves [leaf] st = measure leaf st.
Proof. simpl. now destruct (measure leaf st) as [st' [e |]]. Qed.

Lemma extract_read_leaves m :
  ∀ st, extract_compression_rates m st = read_leaves (measured_leaves m) st.
Proof.
  induction m as [cls kids IH | org r1 r2 IH] using Module_nested_ind; intros st.
  - rewrite extract_compression_rates_eq, measured_leaves_eq. simpl named_children.
    revert st. induction IH as [| [n c] ks Hc _ IHks]; intros st; simpl.
    + reflexivity.
    + rewrite read_leaves_app. unfold visit_child. simpl in Hc.
      destruct (descends c).
      * rewrite Hc. destruct (read_leaves (measured_leaves c) st) as [st' [e |]];
          [reflexivity | apply IHks].
      * rewrite read_leaves_single.
        destruct (measure c st) as [st' [e |]]; [reflexivity | apply IHks].
  - rewrite extract_compression_rates_eq, measured_leaves_eq. simpl.
    rewrite app_nil_r. unfold visit_child. destruct (descends org).
    + rewrite IH. now destruct (read_leaves (measured_leaves org) st) as [st' [e |]].
    + rewrite read_leaves_single. now destruct (measure org st) as [st' [e |]].
Qed.

(** ** What a successful readout appended *)

Lemma measure_ok leaf st st' :
  measure leaf st = (st', None) →
  ∃ o c n,
    get_average_org_bandwidth leaf = Ok o ∧
    get_average_compressed_bandwidth leaf = Ok c ∧
    org_module_type_name leaf = Ok n ∧
    st' = mkLists (org_bandwidth_list st ++ [o])
                  (compressed_bandwidth_list st ++ [c])
                  (name_list st ++ [n]).
Proof.
  unfold measure.
  destruct (get_average_org_bandwidth leaf) as [o | e]; [| discriminate].
  destruct (get_average_compressed_bandwidth leaf) as [c | e]; [| discriminate].
  destruct (org_module_type_name leaf) as [n | e]; [| discriminate].
  simpl. intros [= <-]. now exists o, c, n.
Qed.

Lemma read_leaves_ok leaves :
  ∀ st st',
    read_leaves leaves st = (st', None) →
    ∃ os cs ns,
      Forall2 (fun leaf o => get_average_org_bandwidth leaf = Ok o) leaves os ∧
      Forall2 (fun leaf c => get_average_compressed_bandwidth leaf = Ok c) leaves cs ∧
      Forall2 (fun leaf n => org_module_type_name leaf = Ok n) leaves ns ∧
      st' = mkLists (org_bandwidth_list st ++ os)
                    (compressed_bandwidth_list st ++ cs)
                    (name_list st ++ ns).
Proof.
  induction leaves as [| leaf rest IH]; intros st st' H; simpl in H.
  - injection H as <-. exists [], [], []. repeat split; try constructor.
    destruct st; simpl. now rewrite !app_nil_r.
  - destruct (measure leaf st) as [st1 [e |]] eqn:Hm; [discriminate |].
    apply measure_ok in Hm as (o & c & n & Ho & Hc & Hn & ->).
    apply IH in H as (os & cs & ns & Hos & Hcs & Hns & ->). simpl.
    exists (o :: os), (c :: cs), (n :: ns).
    repeat split; try (constructor; assumption).
    now rewrite <- !app_assoc.
Qed.

(** A wrapper's readout can only fail for lack of samples. *)
Lemma measure_wrapper_raises leaf st st' e :
  isinstance_WrapperModule leaf = true →
  measure leaf st = (st', Some e) → e = NoSamplesError.
Proof.
  destruct leaf as [cls kids | org r1 r2]; [discriminate |]. intros _.
  unfold measure, get_average_org_bandwidth, get_average_compressed_bandwidth,
    org_module_type_name, average.
  destruct (cum_samples r1 <=? 0); [now intros [= _ <-] |].
  destruct (cum_samples r2 <=? 0); [now intros [= _ <-] |].
  discriminate.
Qed.

Lemma measure_never_profiled leaf st :
  never_profiled leaf = true → snd (measure leaf st) = Some NoSamplesError.
Proof.
  destruct leaf as [cls kids | org r1 r2]; [discriminate |]. simpl.
  intros [H1 _]%andb_true_iff. apply Z.eqb_eq in H1.
  unfold measure, get_average_org_bandwidth, average. now rewrite H1.
Qed.

Lemma read_leaves_never_profiled leaves :
  ∀ st leaf,
    Forall (fun l => isinstance_WrapperModule l = true) leaves →
    In leaf leaves →
    never_profiled leaf = true →
    snd (read_leaves leaves st) = Some NoSamplesError.
Proof.
  induction leaves as [| l rest IH]; intros st leaf Hall Hin Hnp; [destruct Hin |].
  inversion Hall as [| ? ? Hl Hrest]; subst. simpl.
  destruct (measure l st) as [st1 [e |]] eqn:Hm.
  - simpl. f_equal. eapply measure_wrapper_raises; eassumption.
  - destruct Hin as [-> | Hin].
    + pose proof (measure_never_profiled leaf st Hnp) as H. rewrite Hm in H.
      discriminate.
    + eapply IH; eassumption.
Qed.

Lemma average_profiled r :
  0 < cum_samples r → average r = Ok (cum_bytes r # Z.to_pos (cum_samples r)).
Proof.
  intros H. unfold average.
  destruct (cum_samples r <=? 0) eqn:E; [apply Z.leb_le in E; lia | reflexivity].
Qed.

(** Recording a sample makes a recorder that had none usable. *)
Lemma record_has_samples r b : 0 <= cum_samples r → 0 < cum_samples (record r b).
Proof. simpl. lia. Qed.

(** ** Claims about the Profile Extraction Pass *)

(** C1: [extract_compression_rates] reads the measured leaves in
    depth-first pre-order, children in declared order, descending only
    into a child that has children and is no wrapper: whatever the lists
    it starts from, it behaves as the readout of the pre-order leaf list.
    In particular, children declared as [X; Y; Z] with X and Z wrapped
    leaves and Y a container holding the wrapped leaf W give exactly the
    names of X, W and Z, in that order. *)
Theorem extract_preorder_declared_order :
  (∀ m st, extract_compression_rates m st = read_leaves (measured_leaves m) st) ∧
  (∀ cls cy nx ny nz nw ox ow oz x1 x2 w1 w2 z1 z2,
     0 < cum_samples x1 → 0 < cum_samples x2 →
     0 < cum_samples w1 → 0 < cum_samples w2 →
     0 < cum_samples z1 → 0 < cum_samples z2 →
     let X := WrapperModule ox x1 x2 in
     let W := WrapperModule ow w1 w2 in
     let Z := WrapperModule oz z1 z2 in
     let root := Plain cls [(nx, X); (ny, Plain cy [(nw, W)]); (nz, Z)] in
     measured_leaves root = [X; W; Z] ∧
     ∃ st, extract_compression_rates root (mkLists [] [] []) = (st, None) ∧
           name_list st = [type_name ox; type_name ow; type_name oz]).
Proof.
  split; [intros m st; apply extract_read_leaves |].
  intros cls cy nx ny nz nw ox ow oz x1 x2 w1 w2 z1 z2 Hx1 Hx2 Hw1 Hw2 Hz1 Hz2
    X W Z root.
  split; [reflexivity |].
  rewrite extract_read_leaves. subst root X W Z. simpl.
  unfold measure. simpl.
  rewrite !average_profiled by assumption. simpl.
  eexists; split; reflexivity.
Qed.

Lemma extract_preorder_declared_order_witness :
  measured_leaves small_net =
    [wrapped_leaf "Conv2d"; wrapped_leaf "ReLU"; wrapped_leaf "Linear"] ∧
  ∃ st, extract_compression_rates small_net (mkLists [] [] []) = (st, None) ∧
        name_list st = ["Conv2d"; "ReLU"; "Linear"].
Proof.
  apply (proj2 extract_preorder_declared_order
           "Net" "Sequential" "conv" "block" "fc" "0"
           (Plain "Conv2d" []) (Plain "ReLU" []) (Plain "Linear" [])
           (record new_recorder 1000) (record new_recorder 250)
           (record new_recorder 1000) (record new_recorder 250)
           (record new_recorder 1000) (record new_recorder 250));
    simpl; lia.
Defined.

(** C2 (with the recorder's [average] modelled from the specification): in
    a wrapped tree, if some leaf the traversal reads has never received a
    profiling forward pass, the extraction ends with [NoSamplesError], and
    [plot_compression_rates] passes that exception on unchanged. *)
Theorem extract_no_samples_propagates m st leaf avg :
  Forall (fun l => isinstance_WrapperModule l = true) (measured_leaves m) →
  In leaf (measured_leaves m) →
  never_profiled leaf = true →
  snd (extract_compression_rates m st) = Some NoSamplesError ∧
  plot_compression_rates m avg = Raise NoSamplesError.
Proof.
  intros Hall Hin Hnp.
  assert (H : ∀ st0, snd (extract_compression_rates m st0) = Some NoSamplesError).
  { intros st0. rewrite extract_read_leaves.
    eapply read_leaves_never_profiled; eassumption. }
  split; [apply H |].
  unfold plot_compression_rates. specialize (H (mkLists [] [] [])).
  destruct (extract_compression_rates m (mkLists [] [] [])) as [st' [e |]];
    simpl in H; [now injection H as -> | discriminate].
Qed.

Lemma extract_no_samples_propagates_witness :
  snd (extract_compression_rates
         (Plain "Net" [("conv", wrapped_leaf "Conv2d"); ("fc", fresh_leaf "Linear")])
         (mkLists [] [] [])) = Some NoSamplesError ∧
  plot_compression_rates
    (Plain "Net" [("conv", wrapped_leaf "Conv2d"); ("fc", fresh_leaf "Linear")])
    (3 # 1) = Raise NoSamplesError.
Proof.
  apply (extract_no_samples_propagates
           (Plain "Net" [("conv", wrapped_leaf "Conv2d"); ("fc", fresh_leaf "Linear")])
           (mkLists [] [] []) (fresh_leaf "Linear") (3 # 1)).
  - simpl. repeat constructor.
  - simpl. right. left. reflexivity.
  - reflexivity.
Defined.

(** C4: on a model with no leaves, a container without children, the
    extraction appends nothing and raises nothing: starting from the three
    empty lists of [plot_compression_rates] it ends with three empty
    lists. *)
Theorem extract_empty_container cls avg :
  extract_compression_rates (Plain cls []) (mkLists [] [] []) =
    (mkLists [] [] [], None) ∧
  plot_compression_rates (Plain cls []) avg = Ok (mkPlot [] [] [] [] []).
Proof. split; reflexivity. Qed.

Lemma extract_ok m st st' :
  extract_compression_rates m st = (st', None) →
  ∃ os cs ns,
    Forall2 (fun leaf o => get_average_org_bandwidth leaf = Ok o) (measured_leaves m) os ∧
    Forall2 (fun leaf c => get_average_compressed_bandwidth leaf = Ok c)
            (measured_leaves m) cs ∧
    Forall2 (fun leaf n => org_module_type_name leaf = Ok n) (measured_leaves m) ns ∧
    st' = mkLists (org_bandwidth_list st ++ os)
                  (compressed_bandwidth_list st ++ cs)
                  (name_list st ++ ns).
Proof. rewrite extract_read_leaves. apply read_leaves_ok. Qed.

(** C5: when [extract_compression_rates] returns without raising, each of
    the three lists has grown by exactly one entry per measured leaf, the
    i-th new entries being the original average, the compressed average
    and the name of the i-th leaf in traversal order; so lists that start
    with equal lengths, as the three empty lists of
    [plot_compression_rates] do, end with equal lengths. *)
Theorem extract_parallel_lists m st st' :
  extract_compression_rates m st = (st', None) →
  (∃ os cs ns,
     org_bandwidth_list st' = org_bandwidth_list st ++ os ∧
     compressed_bandwidth_list st' = compressed_bandwidth_list st ++ cs ∧
     name_list st' = name_list st ++ ns ∧
     List.length os = List.length (measured_leaves m) ∧
     List.length cs = List.length (measured_leaves m) ∧
     List.length ns = List.length (measured_leaves m) ∧
     ∀ (i : nat) leaf, measured_leaves m !! i = Some leaf →
       ∃ o c n, os !! i = Some o ∧ cs !! i = Some c ∧ ns !! i = Some n ∧
                get_average_org_bandwidth leaf = Ok o ∧
                get_average_compressed_bandwidth leaf = Ok c ∧
                org_module_type_name leaf = Ok n) ∧
  (List.length (org_bandwidth_list st) = List.length (compressed_bandwidth_list st) →
   List.length (compressed_bandwidth_list st) = List.length (name_list st) →
   List.length (org_bandwidth_list st') = List.length (compressed_bandwidth_list st') ∧
   List.length (compressed_bandwidth_list st') = List.length (name_list st')).
Proof.
  intros H. apply extract_ok in H as (os & cs & ns & Hos & Hcs & Hns & ->).
  pose proof (Forall2_length _ _ _ Hos) as Los.
  pose proof (Forall2_length _ _ _ Hcs) as Lcs.
  pose proof (Forall2_length _ _ _ Hns) as Lns.
  split.
  - exists os, cs, ns. simpl. repeat split; try congruence.
    intros i leaf Hi.
    destruct (Forall2_lookup_l _ _ _ _ _ Hos Hi) as (o & Ho & Eo).
    destruct (Forall2_lookup_l _ _ _ _ _ Hcs Hi) as (c & Hc & Ec).
    destruct (Forall2_lookup_l _ _ _ _ _ Hns Hi) as (n & Hn & En).
    now exists o, c, n.
  - simpl. intros E1 E2. rewrite !length_app. lia.
Qed.

Lemma extract_parallel_lists_witness :
  (∃ os cs ns,
     [1000 # 1; 1000 # 1; 1000 # 1]%Q = [] ++ os ∧
     [250 # 1; 250 # 1; 250 # 1]%Q = [] ++ cs ∧
     ["Conv2d"; "ReLU"; "Linear"] = [] ++ ns ∧
     List.length os = 3%nat ∧ List.length cs = 3%nat ∧ List.length ns = 3%nat).
Proof.
  destruct (proj1 (extract_parallel_lists small_net (mkLists [] [] [])
              (mkLists [1000 # 1; 1000 # 1; 1000 # 1]%Q
                       [250 # 1; 250 # 1; 250 # 1]%Q
                       ["Conv2d"; "ReLU"; "Linear"]) eq_refl))
    as (os & cs & ns & H1 & H2 & H3 & L1 & L2 & L3 & _).
  exists os, cs, ns. repeat split; assumption.
Defined.

(** C6: after a successful extraction, the name appended for the i-th
    measured leaf is the class name of the module the wrapper holds in
    [org_module]; the leaf itself is a [WrapperModule], whose own class
    name is not what is appended. *)
Theorem extract_names_org_module m st st' (i : nat) leaf :
  extract_compression_rates m st = (st', None) →
  measured_leaves m !! i = Some leaf →
  ∃ org r1 r2,
    leaf = WrapperModule org r1 r2 ∧
    type_name leaf = "WrapperModule" ∧
    name_list st' !! (List.length (name_list st) + i)%nat = Some (type_name org).
Proof.
  intros H Hi. apply extract_ok in H as (os & cs & ns & _ & _ & Hns & ->).
  destruct (Forall2_lookup_l _ _ _ _ _ Hns Hi) as (n & Hn & En).
  destruct leaf as [cls kids | org r1 r2]; [discriminate |].
  injection En as <-. exists org, r1, r2. repeat split. simpl.
  rewrite lookup_app_r by lia.
  now replace (List.length (name_list st) + i - List.length (name_list st))%nat
    with i by lia.
Qed.

Lemma extract_names_org_module_witness :
  ∃ org r1 r2,
    wrapped_leaf "ReLU" = WrapperModule org r1 r2 ∧
    type_name (wrapped_leaf "ReLU") = "WrapperModule" ∧
    ["Conv2d"; "ReLU"; "Linear"] !! (0 + 1)%nat = Some (type_name org).
Proof.
  apply (extract_names_org_module small_net (mkLists [] [] [])
           (mkLists [1000 # 1; 1000 # 1; 1000 # 1]%Q
                    [250 # 1; 250 # 1; 250 # 1]%Q
                    ["Conv2d"; "ReLU"; "Linear"]) 1 (wrapped_leaf "ReLU"));
    reflexivity.
Defined.

(** ** Claims about [test] *)


(** The loop adds up the labels seen and the bytes of the input batches. *)
Lemma test_loop_sums X l :
  ∀ c c',
    test_loop X l c = Ok c' →
    cnt_total c' = cnt_total c + total_samples l ∧
    cnt_bandwidth c' = cnt_bandwidth c + total_nbytes l.
Proof.
  induction l as [| [inputs targets] rest IH]; intros c c' H; simpl in H.
  - injection H as <-. simpl. lia.
  - destruct (forward X (cnt_model c) inputs) as [[model' predicted] | e];
      simpl in H; [| discriminate].
    apply IH in H as [Ht Hb]. simpl in *. lia.
Qed.

Lemma truediv_pos a b : 0 < b → truediv a b = Ok (a # Z.to_pos b).
Proof.
  intros Hb. unfold truediv.
  destruct (b =? 0) eqn:E; [apply Z.eqb_eq in E; lia |].
  rewrite Z.sgn_pos, Z.abs_eq, Z.mul_1_r by lia. reflexivity.
Qed.

Lemma truediv_zero a : truediv a 0 = Raise ZeroDivisionError.
Proof. reflexivity. Qed.



(** C10: [test] divides by the accumulated sample count unguarded.  When
    the loop has run through a loader with zero samples in total, [test]
    ends with [ZeroDivisionError] (both quotients have the divisor zero,
    the accuracy is computed first); with at least one sample both
    quotients are defined and [test] returns them.  The empty loader is
    the simplest case. *)
Theorem test_division_by_sample_count X model test_loader device data_type c :
  test_loop X test_loader (mkCounters model 0 0 0) = Ok c →
  cnt_total c = total_samples test_loader ∧
  (total_samples test_loader = 0 →
     truediv (100 * cnt_correct c) (cnt_total c) = Raise ZeroDivisionError ∧
     truediv (cnt_bandwidth c) (cnt_total c) = Raise ZeroDivisionError ∧
     test X model test_loader device data_type = Raise ZeroDivisionError) ∧
  (0 < total_samples test_loader →
     ∃ acc avg,
       truediv (100 * cnt_correct c) (cnt_total c) = Ok acc ∧
       truediv (cnt_bandwidth c) (cnt_total c) = Ok avg ∧
       test X model test_loader device data_type = Ok (cnt_model c, acc, avg)) ∧
  test X model [] device data_type = Raise ZeroDivisionError.
Proof.
  intros Hc. pose proof (test_loop_sums _ _ _ _ Hc) as [Ht _].
  simpl in Ht. rewrite Z.add_0_l in Ht.
  split; [exact Ht |]. split; [| split].
  - intros E. unfold test. rewrite Hc. simpl. rewrite Ht, E.
    rewrite !truediv_zero. simpl. repeat split.
  - intros Hpos. unfold test. rewrite Hc. simpl. rewrite Ht.
    rewrite !truediv_pos by assumption. simpl. eauto.
  - reflexivity.
Qed.

Lemma test_division_by_sample_count_witness :
  test small_externals (mkModel small_net ∅) [(mkTensor [0; 3] 4 [], [])] "cpu" "Test"
  = Raise ZeroDivisionError.
Proof.
  destruct (test_division_by_sample_count small_externals (mkModel small_net ∅)
              [(mkTensor [0; 3] 4 [], [])] "cpu" "Test"
              (mkCounters (mkModel small_net ∅) 0 0 0) eq_refl)
    as (_ & Hzero & _ & _).
  apply Hzero. reflexivity.
Defined.

(** ** Claims about [validate] and the checkpoint helpers *)

(** C9: every call of [validate] ends with [TypeError]: it passes five
    positional arguments to [test], which has four parameters, so the
    binding of the arguments fails before the body of [test] runs.  The
    world is left as it was: no checkpoint is written, [save_ckpt] is not
    entered, and no new best accuracy is returned. *)
Theorem validate_always_type_error X model valid_loader criterion epoch device
    best_acc ckpt_file_path model_type w :
  bind_positional 4 [VStr "Test"]
    [VModel model; VLoader valid_loader; criterion; VDevice device; VStr "Validation"]
    = Raise TypeError ∧
  validate X model valid_loader criterion epoch device best_acc ckpt_file_path
    model_type w = (w, Raise TypeError).
Proof. split; reflexivity. Qed.




(** ** Claims about [run] *)

(** C7, at the command line [--config c.yaml --epoch 1] with every
    collaborator succeeding: the checkpoint restore returns, one epoch is
    trained, and the first call of [validate] ends the run with
    [TypeError]; [wrap_all_child_modules], the profiling pass of [test]
    and [plot_compression_rates] are never entered. *)
Theorem run_training_stops_before_wrapping :
  run small_externals train_args empty_world =
    (mkWorld ∅ [Enter "resume_from_ckpt"; Leave "resume_from_ckpt";
                Enter "train"; Leave "train"; Enter "validate"],
     Raise TypeError) ∧
  ¬ In (Enter "wrap_all_child_modules")
       (trace (fst (run small_externals train_args empty_world))).
Proof.
  split; [vm_compute; reflexivity |].
  vm_compute. intros H. repeat (destruct H as [H | H]; [discriminate |]).
  exact H.
Qed.

(** ** The driver in general *)

(** An event is not in an explicit trace: compare with each entry. *)
Ltac not_in_trace :=
  let H := fresh "H" in
  cbn; intros H;
  repeat (destruct H as [H | H]; [discriminate |]);
  try exact H; eauto.

Lemma resume_from_ckpt_world model config args w :
  fst (resume_from_ckpt model config args w) = w.
Proof.
  unfold resume_from_ckpt.
  now destruct (arg_init args || negb (path_exists w _)).
Qed.

Lemma py_range_cons a n : 0 < n → ∃ rest, py_range a (a + n) = a :: rest.
Proof.
  intros Hn. unfold py_range. replace (a + n - a) with n by lia.
  rewrite seqZ_cons by lia. eauto.
Qed.

(** The first iteration of the epoch loop never gets past [validate]. *)
Lemma epoch_loop_raises X args epoch rest train_loader valid_loader criterion
    device ckpt_file_path model_type model best_acc w :
  ∃ e evs,
    epoch_loop X args (epoch :: rest) train_loader valid_loader criterion device
      ckpt_file_path model_type model best_acc w =
      (mkWorld (files w) (trace w ++ evs), Raise e) ∧
    ¬ In (Enter "wrap_all_child_modules") evs.
Proof.
  simpl. unfold called, bindM, log, lift, ret. simpl.
  destruct (train X model train_loader epoch device (arg_interval args)) as [m1 | e].
  - exists TypeError, [Enter "train"; Leave "train"; Enter "validate"].
    split; [cbn; now rewrite <- !app_assoc |].
    not_in_trace.
  - exists e, [Enter "train"]. split; [reflexivity |]. not_in_trace.
Qed.

(** X17: with training switched on and at least one epoch asked for, [run]
    ends with an exception whatever the collaborators do, and never enters
    the wrapping pass. *)
Lemma run_training_never_wraps X args fs :
  arg_evaluate args = false → 0 < arg_epoch args →
  ∃ e w',
    run X args (mkWorld fs []) = (w', Raise e) ∧
    ¬ In (Enter "wrap_all_child_modules") (trace w').
Proof.
  intros Hev Hep. unfold run. rewrite Hev.
  unfold bindM at 1. unfold lift at 1.
  destruct (yaml_load X (arg_config args)) as [config | e].
  2: { eexists _, _. split; [reflexivity | not_in_trace]. }
  unfold bindM at 1. unfold lift at 1.
  destruct (load_autoencoder X (arg_ae args) (Some (arg_ckpt args))) as [ae | e].
  2: { eexists _, _. split; [reflexivity | not_in_trace]. }
  unfold bindM at 1. unfold lift at 1.
  destruct (get_data_loaders X args ae config) as [[[trl vl] tl] | e].
  2: { eexists _, _. split; [reflexivity | not_in_trace]. }
  unfold bindM at 1. unfold lift at 1.
  destruct (get_model X _ config) as [model | e].
  2: { eexists _, _. split; [reflexivity | not_in_trace]. }
  unfold bindM at 1. unfold called at 1. unfold bindM at 1, log at 1.
  unfold bindM at 1.
  pose proof (resume_from_ckpt_world model config args
                (mkWorld fs ([] ++ [Enter "resume_from_ckpt"]))) as Hw.
  simpl files in *. simpl trace in *.
  destruct (resume_from_ckpt model config args _) as [w1 [resumed | e]];
    simpl in Hw; subst w1.
  2: { eexists _, _. split; [reflexivity | not_in_trace]. }
  destruct resumed as [[[[model1 model_type] best_acc] start_epoch] ckpt_file_path].
  unfold bindM at 1, log at 1, ret at 1. simpl files. simpl trace.
  unfold bindM at 1. unfold bindM at 1. unfold lift at 1.
  destruct (as_int start_epoch) as [first | e].
  2: { eexists _, _. split; [reflexivity | not_in_trace]. }
  destruct (py_range_cons first (arg_epoch args) Hep) as [rest ->].
  match goal with
  | |- context [epoch_loop ?X ?a (?x :: ?r) ?t ?v ?c ?d ?p ?mt ?m ?b ?w] =>
    destruct (epoch_loop_raises X a x r t v c d p mt m b w) as (e & evs & -> & Hevs)
  end.
  eexists _, _. split; [reflexivity |]. cbn.
  intros H. repeat (destruct H as [H | H]; [discriminate |]). now apply Hevs.
Qed.

(** X16: in evaluation mode, a run that completes made exactly these calls
    in this order: restore, wrapping pass, profiling pass, extraction and
    plot. *)
Lemma run_evaluate_trace X args fs w' p :
  arg_evaluate args = true →
  run X args (mkWorld fs []) = (w', Ok p) →
  trace w' =
    [Enter "resume_from_ckpt"; Leave "resume_from_ckpt";
     Enter "wrap_all_child_modules"; Leave "wrap_all_child_modules";
     Enter "test"; Leave "test";
     Enter "plot_compression_rates"; Leave "plot_compression_rates"].
Proof.
  intros Hev. unfold run. rewrite Hev.
  unfold bindM at 1. unfold lift at 1.
  destruct (yaml_load X (arg_config args)) as [config | e]; [| discriminate].
  unfold bindM at 1. unfold lift at 1.
  destruct (load_autoencoder X (arg_ae args) (Some (arg_ckpt args))) as [ae | e];
    [| discriminate].
  unfold bindM at 1. unfold lift at 1.
  destruct (get_data_loaders X args ae config) as [[[trl vl] tl] | e]; [| discriminate].
  unfold bindM at 1. unfold lift at 1.
  destruct (get_model X _ config) as [model | e]; [| discriminate].
  unfold bindM at 1. unfold called at 1. unfold bindM at 1, log at 1.
  unfold bindM at 1.
  pose proof (resume_from_ckpt_world model config args
                (mkWorld fs ([] ++ [Enter "resume_from_ckpt"]))) as Hw.
  simpl files in *. simpl trace in *.
  destruct (resume_from_ckpt model config args _) as [w1 [resumed | e]];
    simpl in Hw; subst w1; [| discriminate].
  destruct resumed as [[[[model1 model_type] best_acc] start_epoch] ckpt_file_path].
  unfold called, bindM, log, lift, ret. simpl.
  destruct (wrap_all_child_modules X model1) as [model2 | e]; [| discriminate].
  simpl.
  destruct (call_test X _) as [[[model3 acc] avg] | e]; [| discriminate].
  simpl.
  destruct (plot_compression_rates (net model3) avg) as [plot | e]; [| discriminate].
  simpl. now intros [= <- _].
Qed.

(* ===================================================================== *)
(** * Further properties of the extraction *)
(* ===================================================================== *)

Lemma measure_profiled_iff leaf st :
  (∃ st', measure leaf st = (st', None)) ↔ profiled leaf = true.
Proof.
  destruct leaf as [cls kids | org r1 r2]; simpl.
  - split; [intros [st' H]; discriminate | discriminate].
  - unfold measure, get_average_org_bandwidth, get_average_compressed_bandwidth,
      average. simpl.
    destruct (cum_samples r1 <=? 0) eqn:E1, (cum_samples r2 <=? 0) eqn:E2;
      rewrite ?Z.leb_le, ?Z.leb_gt in *;
      destruct (0 <? cum_samples r1) eqn:F1, (0 <? cum_samples r2) eqn:F2;
      rewrite ?Z.ltb_lt, ?Z.ltb_ge in *; simpl;
      try lia; split; try discriminate; try (intros [st' H]; discriminate); eauto.
Qed.

Lemma read_leaves_succeeds_iff leaves :
  ∀ st, (∃ st', read_leaves leaves st = (st', None)) ↔
        Forall (fun l => profiled l = true) leaves.
Proof.
  induction leaves as [| leaf rest IH]; intros st; simpl.
  - split; [constructor | eauto].
  - split.
    + intros [st' H].
      destruct (measure leaf st) as [st1 [e |]] eqn:Hm; [discriminate |].
      constructor.
      * apply (measure_profiled_iff leaf st). eauto.
      * apply (IH st1). eauto.
    + intros Hall. inversion Hall as [| ? ? Hl Hrest]; subst.
      apply (measure_profiled_iff leaf st) in Hl as [st1 ->].
      now apply IH.
Qed.

(** X1: the extraction returns normally exactly when every measured leaf
    is a wrapper both of whose recorders hold at least one sample. *)
Theorem extract_succeeds_iff_profiled m st :
  (∃ st', extract_compression_rates m st = (st', None)) ↔
  Forall (fun l => profiled l = true) (measured_leaves m).
Proof.
  rewrite <- (read_leaves_succeeds_iff (measured_leaves m) st).
  split; intros [st' H]; exists st'; [rewrite <- extract_read_leaves | rewrite extract_read_leaves];
    exact H.
Qed.

Lemma measure_not_wrapper leaf st :
  isinstance_WrapperModule leaf = false → measure leaf st = (st, Some AttributeError).
Proof. destruct leaf; [reflexivity | discriminate]. Qed.

(** X2: when the measured leaves before some leaf are all profiled
    wrappers and that leaf is no wrapper (a module the wrapping pass did
    not replace, or a container without children below the root), the
    extraction ends with [AttributeError]; the lists then hold exactly the
    entries of the leaves before it. *)
Theorem extract_unwrapped_leaf m st good bad rest :
  measured_leaves m = good ++ bad :: rest →
  Forall (fun l => profiled l = true) good →
  isinstance_WrapperModule bad = false →
  ∃ st', extract_compression_rates m st = (st', Some AttributeError) ∧
         read_leaves good st = (st', None).
Proof.
  intros Hleaves Hgood Hbad.
  apply (read_leaves_succeeds_iff good st) in Hgood as [st' Hst'].
  exists st'. split; [| exact Hst'].
  rewrite extract_read_leaves, Hleaves, read_leaves_app, Hst'. simpl.
  now rewrite measure_not_wrapper.
Qed.

Lemma extract_unwrapped_leaf_witness :
  ∃ st', extract_compression_rates net_with_empty_block (mkLists [] [] []) =
           (st', Some AttributeError) ∧
         read_leaves [wrapped_leaf "Conv2d"] (mkLists [] [] []) = (st', None).
Proof.
  apply (extract_unwrapped_leaf net_with_empty_block (mkLists [] [] [])
           [wrapped_leaf "Conv2d"] (Plain "Sequential" []) []).
  - reflexivity.
  - repeat constructor.
  - reflexivity.
Defined.

Lemma measure_appends leaf st :
  ∃ os cs ns,
    org_bandwidth_list (fst (measure leaf st)) = org_bandwidth_list st ++ os ∧
    compressed_bandwidth_list (fst (measure leaf st)) = compressed_bandwidth_list st ++ cs ∧
    name_list (fst (measure leaf st)) = name_list st ++ ns ∧
    (List.length ns <= List.length cs)%nat ∧
    (List.length cs <= List.length os)%nat ∧
    (List.length os <= S (List.length ns))%nat ∧
    (snd (measure leaf st) = None →
     List.length os = 1%nat ∧ List.length cs = 1%nat ∧ List.length ns = 1%nat).
Proof.
  unfold measure.
  destruct (get_average_org_bandwidth leaf) as [o | e]; simpl.
  2: { exists [], [], []. rewrite !app_nil_r. simpl. repeat split; try lia; discriminate. }
  destruct (get_average_compressed_bandwidth leaf) as [c | e]; simpl.
  2: { exists [o], [], []. rewrite !app_nil_r. simpl. repeat split; try lia; discriminate. }
  destruct (org_module_type_name leaf) as [n | e]; simpl.
  2: { exists [o], [c], []. rewrite !app_nil_r. simpl. repeat split; try lia; discriminate. }
  exists [o], [c], [n]. simpl. repeat split; lia.
Qed.

Lemma read_leaves_appends leaves :
  ∀ st, ∃ os cs ns,
    org_bandwidth_list (fst (read_leaves leaves st)) = org_bandwidth_list st ++ os ∧
    compressed_bandwidth_list (fst (read_leaves leaves st)) =
      compressed_bandwidth_list st ++ cs ∧
    name_list (fst (read_leaves leaves st)) = name_list st ++ ns ∧
    (List.length ns <= List.length cs)%nat ∧
    (List.length cs <= List.length os)%nat ∧
    (List.length os <= S (List.length ns))%nat ∧
    (snd (read_leaves leaves st) = None →
     List.length os = List.length ns ∧ List.length cs = List.length ns).
Proof.
  induction leaves as [| leaf rest IH]; intros st; simpl.
  - exists [], [], []. rewrite !app_nil_r. simpl. repeat split; lia.
  - destruct (measure_appends leaf st)
      as (os1 & cs1 & ns1 & Ho1 & Hc1 & Hn1 & L1 & L2 & L3 & Lok).
    destruct (measure leaf st) as [st1 [e |]]; simpl in *.
    + exists os1, cs1, ns1. repeat split; try assumption; discriminate.
    + destruct (Lok eq_refl) as (Eo & Ec & En).
      destruct (IH st1) as (os & cs & ns & Ho & Hc & Hn & M1 & M2 & M3 & Mok).
      exists (os1 ++ os), (cs1 ++ cs), (ns1 ++ ns).
      rewrite Ho, Hc, Hn, Ho1, Hc1, Hn1, <- !app_assoc, !length_app.
      repeat split; intros; try lia; destruct (Mok ltac:(assumption)); lia.
Qed.

(** X3: whatever the outcome, [extract_compression_rates] only appends:
    the lists it was given are prefixes of the lists it leaves.  The
    appended parts are aligned up to the leaf that raised: names are no
    more than compressed averages, these no more than original averages,
    and these at most one more than names; on normal return all three are
    equally long.  The bound is reached: a wrapper whose original recorder
    holds a sample and whose compressed recorder holds none leaves the
    original list one entry longer than the other two. *)
Theorem extract_only_appends :
  (∀ m st, ∃ os cs ns,
     org_bandwidth_list (fst (extract_compression_rates m st)) =
       org_bandwidth_list st ++ os ∧
     compressed_bandwidth_list (fst (extract_compression_rates m st)) =
       compressed_bandwidth_list st ++ cs ∧
     name_list (fst (extract_compression_rates m st)) = name_list st ++ ns ∧
     (List.length ns <= List.length cs)%nat ∧
     (List.length cs <= List.length os)%nat ∧
     (List.length os <= S (List.length ns))%nat ∧
     (snd (extract_compression_rates m st) = None →
      List.length os = List.length ns ∧ List.length cs = List.length ns)) ∧
  (∀ cls name org r1 r2 st,
     0 < cum_samples r1 → cum_samples r2 <= 0 →
     extract_compression_rates (Plain cls [(name, WrapperModule org r1 r2)]) st =
       (mkLists (org_bandwidth_list st ++ [cum_bytes r1 # Z.to_pos (cum_samples r1)])
                (compressed_bandwidth_list st) (name_list st),
        Some NoSamplesError)).
Proof.
  split.
  - intros m st. rewrite extract_read_leaves. apply read_leaves_appends.
  - intros cls name org r1 r2 st H1 H2. simpl. unfold visit_child. simpl.
    unfold measure. simpl. rewrite average_profiled by assumption.
    unfold average. apply Z.leb_le in H2. now rewrite H2.
Qed.

Lemma extract_only_appends_witness :
  extract_compression_rates (Plain "Net" [("fc", half_recorded_leaf "Linear")])
    (mkLists [] [] []) =
  (mkLists [1000 # 1]%Q [] [], Some NoSamplesError).
Proof.
  apply (proj2 extract_only_appends "Net" "fc" (Plain "Linear" [])
           (record new_recorder 1000) new_recorder (mkLists [] [] []));
    simpl; lia.
Defined.

(** ** Structure of the profile *)

Lemma descends_rename f c : descends (rename_children f c) = descends c.
Proof. destruct c as [cls [| k kids] | org r1 r2]; reflexivity. Qed.

Lemma measured_leaves_rename f m :
  measured_leaves (rename_children f m) = map (rename_children f) (measured_leaves m).
Proof.
  induction m as [cls kids IH | org r1 r2 IH] using Module_nested_ind.
  - rewrite !measured_leaves_eq. simpl.
    induction IH as [| [n c] ks Hc _ IHks]; simpl; [reflexivity |].
    rewrite map_app, <- IHks, descends_rename. simpl in Hc.
    destruct (descends c); [now rewrite Hc | reflexivity].
  - rewrite !measured_leaves_eq. simpl. rewrite !app_nil_r, descends_rename.
    destruct (descends org); [exact IH | reflexivity].
Qed.

Lemma type_name_rename f m : type_name (rename_children f m) = type_name m.
Proof. destruct m; reflexivity. Qed.

Lemma measure_rename f leaf st : measure (rename_children f leaf) st = measure leaf st.
Proof.
  destruct leaf as [cls kids | org r1 r2]; [reflexivity |].
  unfold measure. simpl. now rewrite type_name_rename.
Qed.

Lemma read_leaves_rename f leaves :
  ∀ st, read_leaves (map (rename_children f) leaves) st = read_leaves leaves st.
Proof.
  induction leaves as [| leaf rest IH]; intros st; simpl; [reflexivity |].
  rewrite measure_rename. destruct (measure leaf st) as [st' [e |]]; [reflexivity | apply IH].
Qed.

(** X4: the attribute names under which children are registered play no
    part in the extraction (the loop variable [name] is never used): a
    tree and any renaming of it give the same outcome, with the same
    labels, which are class names. *)
Theorem extract_ignores_child_names f m st :
  extract_compression_rates (rename_children f m) st = extract_compression_rates m st.
Proof.
  now rewrite !extract_read_leaves, measured_leaves_rename, read_leaves_rename.
Qed.

(** X5: the profile of a container is the profile of its first children
    followed by the profile of the remaining ones: extracting from
    children [k1 ++ k2] is extracting from [k1] and, if that returned,
    from [k2] with the lists as [k1] left them; an exception in [k1]
    ends the whole extraction. *)
Theorem extract_children_concat cls k1 k2 st :
  measured_leaves (Plain cls (k1 ++ k2)) =
    measured_leaves (Plain cls k1) ++ measured_leaves (Plain cls k2) ∧
  extract_compression_rates (Plain cls (k1 ++ k2)) st =
    match extract_compression_rates (Plain cls k1) st with
    | (st', None) => extract_compression_rates (Plain cls k2) st'
    | (st', Some e) => (st', Some e)
    end.
Proof.
  assert (H : measured_leaves (Plain cls (k1 ++ k2)) =
              measured_leaves (Plain cls k1) ++ measured_leaves (Plain cls k2)).
  { rewrite !measured_leaves_eq. simpl. apply flat_map_app. }
  split; [exact H |].
  rewrite (extract_read_leaves (Plain cls (k1 ++ k2))), H, read_leaves_app.
  rewrite <- (extract_read_leaves (Plain cls k1)).
  destruct (extract_compression_rates (Plain cls k1) st) as [st' [e |]];
    [reflexivity |].
  now rewrite extract_read_leaves.
Qed.

(** X6: a container contributes no entry of its own: putting children
    that are not empty into a container of their own, under any name and
    class, leaves the outcome of the extraction as it was. *)
Theorem extract_container_transparent cls name cls' kids st :
  kids ≠ [] →
  extract_compression_rates (Plain cls [(name, Plain cls' kids)]) st =
  extract_compression_rates (Plain cls' kids) st.
Proof.
  intros Hkids. rewrite !extract_read_leaves. f_equal.
  destruct kids as [| k kids]; [contradiction |].
  rewrite (measured_leaves_eq (Plain cls _)). simpl named_children.
  simpl flat_map. unfold descends. simpl. now rewrite app_nil_r.
Qed.

Lemma extract_container_transparent_witness :
  extract_compression_rates
    (Plain "Outer" [("inner", small_net)]) (mkLists [] [] []) =
  extract_compression_rates small_net (mkLists [] [] []).
Proof.
  apply (extract_container_transparent "Outer" "inner" "Net"
           [("conv", wrapped_leaf "Conv2d");
            ("block", Plain "Sequential" [("0", wrapped_leaf "ReLU")]);
            ("fc", wrapped_leaf "Linear")] (mkLists [] [] [])).
  discriminate.
Defined.

(** X7: when [plot_compression_rates] gets through the extraction, the
    five sequences it hands to the plotting calls are equally long, one
    position per measured leaf: the x positions are 0, 1, ... in order, and
    the input line repeats the given average at every position. *)
Theorem plot_series_aligned model avg plot :
  plot_compression_rates model avg = Ok plot →
  let n := List.length (measured_leaves model) in
  plot_xs plot = range0 n ∧
  plot_input plot = repeat avg n ∧
  List.length (plot_original plot) = n ∧
  List.length (plot_compressed plot) = n ∧
  List.length (plot_xticks plot) = n.
Proof.
  unfold plot_compression_rates. intros H.
  destruct (extract_compression_rates model (mkLists [] [] [])) as [st [e |]] eqn:E;
    [discriminate |].
  injection H as <-. simpl.
  apply extract_ok in E as (os & cs & ns & Hos & Hcs & Hns & ->). simpl.
  pose proof (Forall2_length _ _ _ Hos) as Los.
  pose proof (Forall2_length _ _ _ Hcs) as Lcs.
  pose proof (Forall2_length _ _ _ Hns) as Lns.
  repeat split; try congruence.
  rewrite Lns. clear. induction ns as [| x ns IH]; simpl; [reflexivity | now rewrite IH].
Qed.

Lemma plot_series_aligned_witness :
  plot_xs (mkPlot [0; 1; 2] [3 # 1; 3 # 1; 3 # 1]%Q [1000 # 1; 1000 # 1; 1000 # 1]%Q
                  [250 # 1; 250 # 1; 250 # 1]%Q ["Conv2d"; "ReLU"; "Linear"]) =
    range0 3 ∧
  [3 # 1; 3 # 1; 3 # 1]%Q = repeat (3 # 1)%Q 3 ∧
  List.length [1000 # 1; 1000 # 1; 1000 # 1]%Q = 3%nat ∧
  List.length [250 # 1; 250 # 1; 250 # 1]%Q = 3%nat ∧
  List.length ["Conv2d"; "ReLU"; "Linear"] = 3%nat.
Proof.
  exact (plot_series_aligned small_net (3 # 1)%Q
           (mkPlot [0; 1; 2] [3 # 1; 3 # 1; 3 # 1]%Q [1000 # 1; 1000 # 1; 1000 # 1]%Q
                   [250 # 1; 250 # 1; 250 # 1]%Q ["Conv2d"; "ReLU"; "Linear"])
           eq_refl).
Defined.

(* ===================================================================== *)
(** * Further properties of [test] *)
(* ===================================================================== *)



Lemma test_loop_app X l1 :
  ∀ l2 c,
    test_loop X (l1 ++ l2) c =
    match test_loop X l1 c with
    | Ok c1 => test_loop X l2 c1
    | Raise e => Raise e
    end.
Proof.
  induction l1 as [| [inputs targets] rest IH]; intros l2 c; simpl; [reflexivity |].
  destruct (forward X (cnt_model c) inputs) as [[model' predicted] | e]; simpl;
    [apply IH | reflexivity].
Qed.



(** X9: an exception of the model's forward computation ends [test] with
    that exception: if the batches before some batch were processed and
    the forward pass on that batch raises, [test] raises the same
    exception, whatever batches follow. *)
Theorem test_forward_exception X model l1 inputs targets l2 device data_type c e :
  test_loop X l1 (mkCounters model 0 0 0) = Ok c →
  forward X (cnt_model c) inputs = Raise e →
  test X model (l1 ++ (inputs, targets) :: l2) device data_type = Raise e.
Proof.
  intros H1 Hf. unfold test. rewrite test_loop_app, H1. simpl. now rewrite Hf.
Qed.

(** X10: [test] takes three or four positional arguments.  A call with
    more than four or fewer than three ends with [TypeError] before the
    body runs; with three, [data_type] takes its default ['Test']; with
    four, the fourth is [data_type]. *)
Theorem call_test_arity X :
  (∀ args, (4 < List.length args ∨ List.length args < 3)%nat →
           call_test X args = Raise TypeError) ∧
  (∀ model test_loader device,
     call_test X [VModel model; VLoader test_loader; VDevice device] =
     test X model test_loader device "Test") ∧
  (∀ model test_loader device data_type,
     call_test X [VModel model; VLoader test_loader; VDevice device; VStr data_type] =
     test X model test_loader device data_type).
Proof.
  split; [| split; reflexivity].
  intros args Hlen. unfold call_test, bind_positional. simpl.
  destruct (4 <? List.length args)%nat eqn:E4; [reflexivity |].
  apply Nat.ltb_ge in E4.
  destruct (List.length args <? 3)%nat eqn:E3; [reflexivity |].
  apply Nat.ltb_ge in E3. lia.
Qed.

Lemma call_test_arity_witness :
  call_test small_externals [VModel trained_model; VLoader small_loader] =
  Raise TypeError.
Proof.
  apply (proj1 (call_test_arity small_externals)
           [VModel trained_model; VLoader small_loader]).
  right. simpl. lia.
Defined.

Lemma test_forward_exception_witness :
  test picky_externals trained_model
    ([(mkTensor [2; 3] 4 [1; 0], [1; 1])] ++ (mkTensor [0; 3] 4 [], []) :: small_loader)
    "cpu" "Test" = Raise RuntimeError.
Proof.
  apply (test_forward_exception picky_externals trained_model
           [(mkTensor [2; 3] 4 [1; 0], [1; 1])] (mkTensor [0; 3] 4 []) [] small_loader
           "cpu" "Test" (mkCounters trained_model 1 2 24) RuntimeError);
    reflexivity.
Defined.

(* ===================================================================== *)
(** * Further properties of the checkpoint helpers *)
(* ===================================================================== *)

(** X11: with [-init], or when no file exists at the checkpoint path,
    [resume_from_ckpt] reads nothing: it returns the model as it is, the
    model type of the configuration, best accuracy 0 and start epoch 1,
    together with the path, and leaves the world as it was; with [-init]
    this holds even when a checkpoint is there. *)
Theorem resume_fresh_start model config args w :
  arg_init args = true ∨
  files w !! path_join (arg_ckpt args) (experiment_name config) = None →
  resume_from_ckpt model config args w =
    (w, Ok (model, VStr (model_type_of config), VInt 0, VInt 1,
            path_join (arg_ckpt args) (experiment_name config))).
Proof.
  unfold resume_from_ckpt, path_exists. intros [-> | ->]; [reflexivity |].
  now rewrite orb_true_r.
Qed.

Lemma resume_fresh_start_witness :
  resume_from_ckpt initial_model (mkConfig "exp" "resnet" []) init_args saved_world =
  (saved_world, Ok (initial_model, VStr "resnet", VInt 0, VInt 1, "./resource/ckpt/exp")).
Proof.
  apply (resume_fresh_start initial_model (mkConfig "exp" "resnet" []) init_args
           saved_world).
  left. reflexivity.
Defined.



(** X13: [save_ckpt] writes one file and nothing else: the checkpoints at
    other paths and the call trace stay as they were, and a second save to
    the same path replaces the first, so that the world is as if only the
    second had been made. *)
Theorem save_ckpt_overwrites model1 acc1 epoch1 type1 model2 acc2 epoch2 type2 path w :
  let w1 := fst (save_ckpt model1 acc1 epoch1 path type1 w) in
  let w2 := fst (save_ckpt model2 acc2 epoch2 path type2 w1) in
  (∀ other, other ≠ path → files w1 !! other = files w !! other) ∧
  trace w1 = trace w ∧
  w2 = fst (save_ckpt model2 acc2 epoch2 path type2 w).
Proof.
  simpl. repeat split.
  - intros other Hne. now apply lookup_insert_ne.
  - now rewrite insert_insert_eq.
Qed.

(* ===================================================================== *)
(** * Further properties of the driver *)
(* ===================================================================== *)

Lemma keeps_files_ret {A} (a : A) : keeps_files (ret a).
Proof. intros w. reflexivity. Qed.

Lemma keeps_files_lift {A} (r : result A) : keeps_files (lift r).
Proof. intros w. reflexivity. Qed.

Lemma keeps_files_log ev : keeps_files (log ev).
Proof. intros w. reflexivity. Qed.

Lemma keeps_files_bind {A B} (c : M A) (k : A → M B) :
  keeps_files c → (∀ a, keeps_files (k a)) → keeps_files (bindM c k).
Proof.
  intros Hc Hk w. unfold bindM. specialize (Hc w).
  destruct (c w) as [w1 [a | e]]; simpl in *; [| exact Hc].
  now rewrite Hk.
Qed.

Lemma keeps_files_called {A} f (c : M A) : keeps_files c → keeps_files (called f c).
Proof.
  intros Hc. unfold called.
  apply keeps_files_bind; [apply keeps_files_log | intros _].
  apply keeps_files_bind; [exact Hc | intros a].
  apply keeps_files_bind; [apply keeps_files_log | intros _].
  apply keeps_files_ret.
Qed.

Lemma keeps_files_resume model config args :
  keeps_files (resume_from_ckpt model config args).
Proof. intros w. now rewrite resume_from_ckpt_world. Qed.

Lemma keeps_files_validate X model valid_loader criterion epoch device best_acc
    ckpt_file_path model_type :
  keeps_files (validate X model valid_loader criterion epoch device best_acc
                 ckpt_file_path model_type).
Proof. intros w. reflexivity. Qed.

Lemma keeps_files_epoch_loop X args epochs train_loader valid_loader criterion device
    ckpt_file_path model_type :
  ∀ model best_acc,
    keeps_files (epoch_loop X args epochs train_loader valid_loader criterion device
                   ckpt_file_path model_type model best_acc).
Proof.
  induction epochs as [| epoch rest IH]; intros model best_acc; simpl.
  - apply keeps_files_ret.
  - apply keeps_files_bind;
      [apply keeps_files_called, keeps_files_lift | intros model1].
    apply keeps_files_bind;
      [apply keeps_files_called, keeps_files_validate | intros [model2 best_acc']].
    apply IH.
Qed.

(** X14: [run] never changes a checkpoint file, in training mode as
    little as in evaluation mode: the only writer, [save_ckpt], is called
    from [validate] after its call of [test], which does not return. *)
Theorem run_never_saves X args w :
  files (fst (run X args w)) = files w.
Proof.
  revert w. change (keeps_files (run X args)). unfold run.
  apply keeps_files_bind; [apply keeps_files_lift | intros config].
  apply keeps_files_bind; [apply keeps_files_lift | intros ae].
  apply keeps_files_bind; [apply keeps_files_lift | intros [[trl vl] tl]].
  apply keeps_files_bind; [apply keeps_files_lift | intros model].
  apply keeps_files_bind;
    [apply keeps_files_called, keeps_files_resume
    | intros [[[[model1 model_type] best_acc] start_epoch] ckpt_file_path]].
  apply keeps_files_bind.
  - destruct (arg_evaluate args); [apply keeps_files_ret |].
    apply keeps_files_bind; [apply keeps_files_lift | intros first].
    apply keeps_files_epoch_loop.
  - intros [model2 best_acc'].
    apply keeps_files_bind;
      [apply keeps_files_called, keeps_files_lift | intros model3].
    apply keeps_files_bind;
      [apply keeps_files_called, keeps_files_lift | intros [[model4 acc] avg]].
    apply keeps_files_called, keeps_files_lift.
Qed.

Lemma py_range_empty a n : n <= 0 → py_range a (a + n) = [].
Proof.
  intros Hn. unfold py_range, seqZ. replace (a + n - a) with n by lia.
  now replace (Z.to_nat n) with 0%nat by lia.
Qed.

(** X15: in training mode with an epoch count of zero or less the loop
    body never runs: a run that completes made the same calls as in
    evaluation mode, restore, wrapping pass, profiling pass and plot, and
    neither trained nor validated. *)
Theorem run_no_epochs_trace X args fs w' p :
  arg_evaluate args = false → arg_epoch args <= 0 →
  run X args (mkWorld fs []) = (w', Ok p) →
  trace w' =
    [Enter "resume_from_ckpt"; Leave "resume_from_ckpt";
     Enter "wrap_all_child_modules"; Leave "wrap_all_child_modules";
     Enter "test"; Leave "test";
     Enter "plot_compression_rates"; Leave "plot_compression_rates"].
Proof.
  intros Hev Hep. unfold run. rewrite Hev.
  unfold bindM at 1. unfold lift at 1.
  destruct (yaml_load X (arg_config args)) as [config | e]; [| discriminate].
  unfold bindM at 1. unfold lift at 1.
  destruct (load_autoencoder X (arg_ae args) (Some (arg_ckpt args))) as [ae | e];
    [| discriminate].
  unfold bindM at 1. unfold lift at 1.
  destruct (get_data_loaders X args ae config) as [[[trl vl] tl] | e]; [| discriminate].
  unfold bindM at 1. unfold lift at 1.
  destruct (get_model X _ config) as [model | e]; [| discriminate].
  unfold bindM at 1. unfold called at 1. unfold bindM at 1, log at 1.
  unfold bindM at 1.
  pose proof (resume_from_ckpt_world model config args
                (mkWorld fs ([] ++ [Enter "resume_from_ckpt"]))) as Hw.
  simpl files in *. simpl trace in *.
  destruct (resume_from_ckpt model config args _) as [w1 [resumed | e]];
    simpl in Hw; subst w1; [| discriminate].
  destruct resumed as [[[[model1 model_type] best_acc] start_epoch] ckpt_file_path].
  unfold bindM at 1, log at 1, ret at 1. simpl files. simpl trace.
  unfold bindM at 1. unfold bindM at 1. unfold lift at 1.
  destruct (as_int start_epoch) as [first | e]; [| discriminate].
  rewrite py_range_empty by exact Hep.
  unfold epoch_loop, called, bindM, log, lift, ret. simpl.
  destruct (wrap_all_child_modules X model1) as [model2 | e]; [| discriminate].
  simpl.
  destruct (call_test X _) as [[[model3 acc] avg] | e]; [| discriminate].
  simpl.
  destruct (plot_compression_rates (net model3) avg) as [plot | e]; [| discriminate].
  simpl. now intros [= <- _].
Qed.

Lemma run_no_epochs_trace_witness :
  trace (fst (run small_externals no_epoch_args empty_world)) =
    [Enter "resume_from_ckpt"; Leave "resume_from_ckpt";
     Enter "wrap_all_child_modules"; Leave "wrap_all_child_modules";
     Enter "test"; Leave "test";
     Enter "plot_compression_rates"; Leave "plot_compression_rates"].
Proof.
  eapply (run_no_epochs_trace small_externals no_epoch_args ∅).
  - reflexivity.
  - simpl. lia.
  - vm_compute. reflexivity.
Defined.

Lemma run_evaluate_trace_witness :
  trace (fst (run small_externals evaluate_args empty_world)) =
    [Enter "resume_from_ckpt"; Leave "resume_from_ckpt";
     Enter "wrap_all_child_modules"; Leave "wrap_all_child_modules";
     Enter "test"; Leave "test";
     Enter "plot_compression_rates"; Leave "plot_compression_rates"].
Proof.
  eapply (run_evaluate_trace small_externals evaluate_args ∅).
  - reflexivity.
  - vm_compute. reflexivity.
Defined.

Lemma run_training_never_wraps_witness :
  ∃ e w',
    run small_externals train_args (mkWorld ∅ []) = (w', Raise e) ∧
    ¬ In (Enter "wrap_all_child_modules") (trace w').
Proof.
  apply (run_training_never_wraps small_externals train_args ∅).
  - reflexivity.
  - reflexivity.
Defined.
